(** * daily-fish-backend: the blog-post API of [src/index.ts]

    A shallow embedding of the Cloudflare Worker in [src/index.ts]: the five
    route handlers registered on the Hono application, the module-level
    [prisma] singleton and the [fetch] entry point that guards it.

    The handlers are embedded as programs over the Prisma calls they await
    ([Handler]); the relational store behind the client follows
    [prisma/schema.prisma] ([Store], [exec]).  Console logging and the
    response headers added by the CORS middleware are not part of the model. *)

From Stdlib Require Import ZArith PrimFloat.
From stdpp Require Import gmap strings list sorting functions.

#[local] Set Warnings "-register-all".
#[local] Open Scope Z_scope.

(** ** JavaScript values *)

(** What [JSON.parse] produces, plus [undefined] for the variables a
    destructuring pattern binds when the property is absent.  Numbers are
    IEEE doubles, as in the language. *)
Inductive JsValue : Type :=
| JUndefined
| JNull
| JBool (b : bool)
| JNumber (f : float)
| JString (s : string)
| JArray (items : list JsValue)
| JObject (fields : list (string * JsValue)). (* keys distinct, as the parser leaves them *)

(** [!v] is [negb (truthy v)]: the falsy values are [undefined], [null],
    [false], [0], [-0], [NaN] and the empty string. *)
Definition truthy (v : JsValue) : bool :=
  match v with
  | JUndefined | JNull => false
  | JBool b => b
  | JNumber f => negb (PrimFloat.eqb f 0%float || PrimFloat.is_nan f)
  | JString s => negb (String.eqb s EmptyString)
  | JArray _ | JObject _ => true
  end.

(** [a === b].  Arrays and objects compare by identity; the two sides of
    the only comparison in the source come from different allocations (a
    database row and the parsed request body), so they are never the same
    object. *)
Definition strict_eq (a b : JsValue) : bool :=
  match a, b with
  | JUndefined, JUndefined => true
  | JNull, JNull => true
  | JBool x, JBool y => Bool.eqb x y
  | JNumber x, JNumber y => PrimFloat.eqb x y
  | JString x, JString y => String.eqb x y
  | _, _ => false
  end.

Fixpoint assoc (key : string) (fields : list (string * JsValue)) : JsValue :=
  match fields with
  | [] => JUndefined
  | (k, v) :: rest => if String.eqb k key then v else assoc key rest
  end.

(** [v.key] for a value that is neither [null] nor [undefined], and a key
    that no built-in prototype defines (the source reads [title],
    [content], [published], [authorId] and [currentUserId] only). *)
Definition prop (v : JsValue) (key : string) : JsValue :=
  match v with
  | JObject fields => assoc key fields
  | _ => JUndefined
  end.

(** [null] and [undefined] are the values a destructuring pattern throws on. *)
Definition nullish (v : JsValue) : bool :=
  match v with
  | JNull | JUndefined => true
  | _ => false
  end.

(** ** Exceptions *)

Inductive Thrown : Type :=
| ErrorObject (name message : string)
| NonError (text : string).

(** [error instanceof Error ? error.message : String(error)] *)
Definition error_details (error : Thrown) : string :=
  match error with
  | ErrorObject _ message => message
  | NonError text => text
  end.

(** ** The data model of [prisma/schema.prisma] *)

Module Post.
Record t : Type := mk
  { id : string;
    createdAt : Z;
    title : string;
    content : string;
    authorId : string;
    published : bool }.
End Post.

Module User.
Record t : Type := mk { id : string; email : string }.
End User.

(** A post with [include: { author: { select: { id: true, email: true } } }]. *)
Module PostWithAuthor.
Record t : Type := mk { post : Post.t; author : User.t }.
End PostWithAuthor.

(** ** Responses *)

Inductive Payload : Type :=
| ErrorBody (error : string)
| ErrorDetails (error details : string)
| PostBody (post : Post.t)
| PostWithAuthorBody (post : PostWithAuthor.t)
| PostList (posts : list PostWithAuthor.t).

Inductive Body : Type :=
| Text (text : string)
| Json (payload : Payload)
| NoBody.

Record Response : Type := mkResponse { status : Z; body : Body }.

(** [c.json(payload, status)], [c.text(text, status)], [c.body(null, status)] *)
Definition json (payload : Payload) (status : Z) : Response := mkResponse status (Json payload).
Definition text (t : string) (status : Z) : Response := mkResponse status (Text t).
Definition no_body (status : Z) : Response := mkResponse status NoBody.

(** ** Handlers as programs over Prisma calls *)

(** The calls on [prisma.post] that the source awaits, indexed by what each
    resolves to.  The arguments are the values the handler passes, before
    any validation by the client. *)
Inductive PrismaCall : Type → Type :=
| FindManyPosts : PrismaCall (list PostWithAuthor.t)
| FindUniquePost (id : string) : PrismaCall (option PostWithAuthor.t)
| FindUniqueAuthorId (id : string) : PrismaCall (option string)
| CreatePost (title content authorId : JsValue) (published : bool) : PrismaCall Post.t
| UpdatePost (id : string) (title content published : JsValue) : PrismaCall Post.t
| DeletePost (id : string) : PrismaCall Post.t.

(** An awaited promise either rejects or resolves. *)
Inductive Settled (X : Type) : Type :=
| Rejected (error : Thrown)
| Resolved (x : X).
Arguments Rejected {X} error.
Arguments Resolved {X} x.

Inductive Handler (A : Type) : Type :=
| Ret (a : A)
| Throw (error : Thrown)
| Await {X : Type} (call : PrismaCall X) (k : Settled X → Handler A).
Arguments Ret {A} a.
Arguments Throw {A} error.
Arguments Await {A X} call k.

Fixpoint bind {A B : Type} (m : Handler A) (f : A → Handler B) : Handler B :=
  match m with
  | Ret a => f a
  | Throw error => Throw error
  | Await call k => Await call (λ r, bind (k r) f)
  end.

#[global] Instance Handler_ret : MRet Handler := @Ret.
#[global] Instance Handler_bind : MBind Handler := λ A B f m, bind m f.

(** [await call]: a rejection is rethrown at the await. *)
Definition await {X : Type} (call : PrismaCall X) : Handler X :=
  Await call (λ r, match r with Rejected error => Throw error | Resolved x => Ret x end).

(** [try { body } catch (error) { handler error }] *)
Fixpoint try_catch {A : Type} (body : Handler A) (handler : Thrown → Handler A) : Handler A :=
  match body with
  | Ret a => Ret a
  | Throw error => handler error
  | Await call k => Await call (λ r, try_catch (k r) handler)
  end.

(** ** Requests *)

(** The request body as [c.req.json()] sees it: text that [JSON.parse]
    rejects (the empty body included), or the parsed value. *)
Inductive ReqBody : Type :=
| Malformed (message : string)
| Parsed (v : JsValue).

(** [await c.req.json()] *)
Definition req_json (b : ReqBody) : Handler JsValue :=
  match b with
  | Malformed message => Throw (ErrorObject "SyntaxError" message)
  | Parsed v => Ret v
  end.

(** [const { key, ... } = v]: destructuring [null] or [undefined] throws a
    [TypeError]; on any other value each name is bound by a property read. *)
Definition destructure (v : JsValue) (key : string) : Handler (string → JsValue) :=
  match v with
  | JNull =>
      Throw (ErrorObject "TypeError"
               ("Cannot destructure property '" +:+ key +:+ "' of '(intermediate value)' as it is null."))
  | JUndefined =>
      Throw (ErrorObject "TypeError"
               ("Cannot destructure property '" +:+ key +:+ "' of '(intermediate value)' as it is undefined."))
  | _ => Ret (prop v)
  end.

(** ** The route handlers *)

(** [app.get('/')] *)
Definition get_root : Handler Response :=
  Ret (text "Hono Blog Backend (on Cloudflare Workers) is running!" 200).

(** [app.get('/api/posts')] *)
Definition get_posts : Handler Response :=
  try_catch
    (posts ← await FindManyPosts;
     Ret (json (PostList posts) 200))
    (λ error, Ret (json (ErrorDetails "Failed to fetch posts" (error_details error)) 500)).

(** [app.get('/api/posts/:id')] *)
Definition get_post (id : string) : Handler Response :=
  try_catch
    (post ← await (FindUniquePost id);
     match post with
     | None => Ret (json (ErrorBody "Post not found") 404)
     | Some post => Ret (json (PostWithAuthorBody post) 200)
     end)
    (λ error, Ret (json (ErrorDetails "Failed to fetch post" (error_details error)) 500)).

(** [app.post('/api/posts')] *)
Definition post_posts (b : ReqBody) : Handler Response :=
  parsed ← req_json b;
  fields ← destructure parsed "title";
  let title := fields "title" in
  let content := fields "content" in
  let authorId := fields "authorId" in
  if negb (truthy title) || negb (truthy content) || negb (truthy authorId) then
    Ret (json (ErrorBody "Title, content, and author ID are required") 400)
  else
    try_catch
      (newPost ← await (CreatePost title content authorId true);
       Ret (json (PostBody newPost) 201))
      (λ error, Ret (json (ErrorDetails "Failed to create post" (error_details error)) 500)).

(** [app.put('/api/posts/:id')] *)
Definition put_post (id : string) (b : ReqBody) : Handler Response :=
  parsed ← req_json b;
  fields ← destructure parsed "title";
  let title := fields "title" in
  let content := fields "content" in
  let published := fields "published" in
  let currentUserId := fields "currentUserId" in
  if negb (truthy currentUserId) then
    Ret (json (ErrorBody "Authentication required") 401)
  else
    try_catch
      (existingPost ← await (FindUniqueAuthorId id);
       match existingPost with
       | None => Ret (json (ErrorBody "Post not found") 404)
       | Some authorId =>
           if negb (strict_eq (JString authorId) currentUserId) then
             Ret (json (ErrorBody "Unauthorized: You are not the author of this post") 403)
           else
             updatedPost ← await (UpdatePost id title content published);
             Ret (json (PostBody updatedPost) 200)
       end)
      (λ error, Ret (json (ErrorDetails "Failed to update post" (error_details error)) 500)).

(** [app.delete('/api/posts/:id')] *)
Definition delete_post (id : string) (b : ReqBody) : Handler Response :=
  parsed ← req_json b;
  fields ← destructure parsed "currentUserId";
  let currentUserId := fields "currentUserId" in
  if negb (truthy currentUserId) then
    Ret (json (ErrorBody "Authentication required") 401)
  else
    try_catch
      (existingPost ← await (FindUniqueAuthorId id);
       match existingPost with
       | None => Ret (json (ErrorBody "Post not found") 404)
       | Some authorId =>
           if negb (strict_eq (JString authorId) currentUserId) then
             Ret (json (ErrorBody "Unauthorized: You are not the author of this post") 403)
           else
             _ ← await (DeletePost id);
             Ret (no_body 204)
       end)
      (λ error, Ret (json (ErrorDetails "Failed to delete post" (error_details error)) 500)).

(** ** The store behind the client *)

(** The [posts] table is keyed by its primary key [id]; a row holds the
    other columns.  The [users] table maps [id] to [email]. *)
Module Row.
Record t : Type := mk
  { createdAt : Z;
    title : string;
    content : string;
    authorId : string;
    published : bool }.
End Row.

Record Store : Type := mkStore
  { posts : gmap string Row.t;
    users : gmap string string }.

Definition post_of (id : string) (r : Row.t) : Post.t :=
  Post.mk id (Row.createdAt r) (Row.title r) (Row.content r) (Row.authorId r) (Row.published r).

Definition all_posts (s : Store) : list Post.t :=
  (λ kr, post_of kr.1 kr.2) <$> map_to_list (posts s).

(** The [author] relation, restricted to the selected [id] and [email]. *)
Definition with_author (s : Store) (p : Post.t) : option PostWithAuthor.t :=
  email ← users s !! Post.authorId p;
  Some (PostWithAuthor.mk p (User.mk (Post.authorId p) email)).

(** The foreign key of [Post.authorId] on [User.id]. *)
Definition foreign_key_ok (s : Store) : Prop :=
  map_Forall (λ _ r, is_Some (users s !! Row.authorId r)) (posts s).

(** [orderBy: { createdAt: 'desc' }]: [a] may come before [b]. *)
Definition newest_first (a b : PostWithAuthor.t) : Prop :=
  Post.createdAt (PostWithAuthor.post b) ≤ Post.createdAt (PostWithAuthor.post a).

#[global] Instance newest_first_dec a b : Decision (newest_first a b).
Proof. unfold newest_first. apply _. Defined.

(** How the client reads an argument of an update.  In Prisma Client an
    [undefined] in [data] means "do nothing": the column is left alone.  A
    value of the column's type (bare, or as [{ set: value }]) replaces the
    stored one.  Anything else fails validation, [null] included, the
    columns of the schema being required. *)
Inductive UpdateArg (T : Type) : Type :=
| Unchanged
| SetTo (x : T)
| Invalid.
Arguments Unchanged {T}.
Arguments SetTo {T} x.
Arguments Invalid {T}.

Definition string_update (v : JsValue) : UpdateArg string :=
  match v with
  | JUndefined => Unchanged
  | JString x => SetTo x
  | JObject [(key, JString x)] => if String.eqb key "set" then SetTo x else Invalid
  | _ => Invalid
  end.

Definition bool_update (v : JsValue) : UpdateArg bool :=
  match v with
  | JUndefined => Unchanged
  | JBool x => SetTo x
  | JObject [(key, JBool x)] => if String.eqb key "set" then SetTo x else Invalid
  | _ => Invalid
  end.

Definition apply_update {T : Type} (arg : UpdateArg T) (old : T) : T :=
  match arg with
  | SetTo x => x
  | _ => old
  end.

(** The argument passes validation. *)
Definition accepted {T : Type} (arg : UpdateArg T) : bool :=
  match arg with
  | Invalid => false
  | _ => true
  end.

(** PostgreSQL text holds no NUL byte: the database refuses a string with
    one, as a parameter or as a value of a statement, so that such a string
    is never a key of a table.  The calls below look the key up before
    they refuse it; on a table a database can hold, where the lookup of
    such an id finds nothing, that is to refuse it always
    ([nul_id_refused]). *)
Fixpoint has_nul (s : string) : bool :=
  match s with
  | EmptyString => false
  | String c rest => Ascii.eqb c Ascii.zero || has_nul rest
  end.

(** The database can store the string to write. *)
Definition storable (arg : UpdateArg string) : bool :=
  match arg with
  | SetTo x => negb (has_nul x)
  | _ => true
  end.

Definition nul_error : Thrown :=
  ErrorObject "PrismaClientUnknownRequestError" "invalid byte sequence for encoding UTF8: 0x00".
Definition validation_error : Thrown :=
  ErrorObject "PrismaClientValidationError" "Invalid value provided".
Definition not_found_error : Thrown :=
  ErrorObject "PrismaClientKnownRequestError" "Record to update or delete does not exist (P2025)".
Definition foreign_key_error : Thrown :=
  ErrorObject "PrismaClientKnownRequestError" "Foreign key constraint failed (P2003)".
Definition unique_error : Thrown :=
  ErrorObject "PrismaClientKnownRequestError" "Unique constraint failed (P2002)".
Definition inconsistent_error : Thrown :=
  ErrorObject "PrismaClientUnknownRequestError" "Inconsistent query result: field author is required".

(** What [@default(uuid())] and [@default(now())] produce for a request. *)
Record Defaults : Type := mkDefaults { uuid : string; now : Z }.

Definition find_many (s : Store) : Settled (list PostWithAuthor.t) :=
  match mapM (with_author s) (all_posts s) with
  | None => Rejected inconsistent_error
  | Some joined => Resolved (merge_sort newest_first joined)
  end.

Definition find_unique (id : string) (s : Store) : Settled (option PostWithAuthor.t) :=
  match posts s !! id with
  | None => if has_nul id then Rejected nul_error else Resolved None
  | Some r =>
      match with_author s (post_of id r) with
      | None => Rejected inconsistent_error
      | Some found => Resolved (Some found)
      end
  end.

Definition find_author_id (id : string) (s : Store) : Settled (option string) :=
  match posts s !! id with
  | None => if has_nul id then Rejected nul_error else Resolved None
  | Some r => Resolved (Some (Row.authorId r))
  end.

Definition create (d : Defaults) (title content authorId : JsValue) (published : bool)
    (s : Store) : Settled Post.t * Store :=
  match title, content, authorId with
  | JString t, JString c, JString a =>
      if has_nul t || has_nul c || has_nul a then (Rejected nul_error, s)
      else
        match users s !! a with
        | None => (Rejected foreign_key_error, s)
        | Some _ =>
            match posts s !! uuid d with
            | Some _ => (Rejected unique_error, s)
            | None =>
                let r := Row.mk (now d) t c a published in
                (Resolved (post_of (uuid d) r), mkStore (<[uuid d := r]> (posts s)) (users s))
            end
        end
  | _, _, _ => (Rejected validation_error, s)
  end.

Definition update (id : string) (title content published : JsValue)
    (s : Store) : Settled Post.t * Store :=
  match string_update title, string_update content, bool_update published with
  | Invalid, _, _ | _, Invalid, _ | _, _, Invalid => (Rejected validation_error, s)
  | t, c, p =>
      if storable t && storable c then
        match posts s !! id with
        | None => (Rejected (if has_nul id then nul_error else not_found_error), s)
        | Some old =>
            let r := Row.mk (Row.createdAt old)
                       (apply_update t (Row.title old))
                       (apply_update c (Row.content old))
                       (Row.authorId old)
                       (apply_update p (Row.published old)) in
            (Resolved (post_of id r), mkStore (<[id := r]> (posts s)) (users s))
        end
      else (Rejected nul_error, s)
  end.

(** The update goes through: the client accepts the three values and the
    database can store the strings. *)
Definition update_accepted (title content published : JsValue) : bool :=
  accepted (string_update title) && accepted (string_update content)
  && accepted (bool_update published)
  && storable (string_update title) && storable (string_update content).

Definition delete_row (id : string) (s : Store) : Settled Post.t * Store :=
  match posts s !! id with
  | None => (Rejected (if has_nul id then nul_error else not_found_error), s)
  | Some old => (Resolved (post_of id old), mkStore (delete id (posts s)) (users s))
  end.

Definition exec {X : Type} (d : Defaults) (call : PrismaCall X) (s : Store) : Settled X * Store :=
  match call in PrismaCall X return Settled X * Store with
  | FindManyPosts => (find_many s, s)
  | FindUniquePost id => (find_unique id s, s)
  | FindUniqueAuthorId id => (find_author_id id s, s)
  | CreatePost title content authorId published => create d title content authorId published s
  | UpdatePost id title content published => update id title content published s
  | DeletePost id => delete_row id s
  end.

Inductive CallName : Type :=
| findMany | findUnique | createCall | updateCall | deleteCall.

Definition call_name {X : Type} (call : PrismaCall X) : CallName :=
  match call with
  | FindManyPosts => findMany
  | FindUniquePost _ | FindUniqueAuthorId _ => findUnique
  | CreatePost _ _ _ _ => createCall
  | UpdatePost _ _ _ _ => updateCall
  | DeletePost _ => deleteCall
  end.

(** Running a handler: how its promise settles, the store it leaves, and
    the calls it made, in order. *)
Record Ran (A : Type) : Type := mkRan
  { outcome : Settled A;
    store : Store;
    calls : list CallName }.
Arguments mkRan {A} outcome store calls.
Arguments outcome {A} r.
Arguments store {A} r.
Arguments calls {A} r.

Fixpoint run {A : Type} (d : Defaults) (h : Handler A) (s : Store) : Ran A :=
  match h with
  | Ret a => mkRan (Resolved a) s []
  | Throw error => mkRan (Rejected error) s []
  | Await call k =>
      let rs := exec d call s in
      let ran := run d (k rs.1) rs.2 in
      mkRan (outcome ran) (store ran) (call_name call :: calls ran)
  end.

(** ** The worker: routing and the [prisma] singleton *)

Inductive Method : Type :=
| GET | HEAD | POST | PUT | DELETE | OPTIONS.

(** The request path, by the registered pattern it matches: ['/'],
    ['/api/posts'], ['/api/posts/:id'], another path under ['/api/'], or a
    path elsewhere. *)
Inductive Path : Type :=
| Root
| ApiPosts
| ApiPost (id : string)
| ApiOther
| Elsewhere.

Record Request : Type := mkRequest
  { method : Method;
    path : Path;
    req_body : ReqBody }.

(** The environment a request is delivered with.  The binding is typed
    [string], but what the runtime hands over may be anything, and the
    source checks. *)
Record Bindings : Type := mkBindings { DATABASE_URL_ACCELERATE : JsValue }.

Record PrismaClient : Type := mkClient { datasource_url : string }.

Definition initializePrismaClient (databaseUrl : string) : PrismaClient :=
  mkClient databaseUrl.

(** The module-level [let prisma] (unset until the first initialisation),
    and the database each connection string reaches. *)
Record World : Type := mkWorld
  { prisma : option PrismaClient;
    databases : string → Store }.

(** The path is matched by the ['/api/*'] pattern of the CORS middleware. *)
Definition under_api (p : Path) : bool :=
  match p with
  | ApiPosts | ApiPost _ | ApiOther => true
  | Root | Elsewhere => false
  end.

(** The table of [app.get], [app.post], [app.put] and [app.delete]. *)
Definition route (m : Method) (p : Path) (b : ReqBody) : option (Handler Response) :=
  match m, p with
  | GET, Root => Some get_root
  | GET, ApiPosts => Some get_posts
  | GET, ApiPost id => Some (get_post id)
  | POST, ApiPosts => Some (post_posts b)
  | PUT, ApiPost id => Some (put_post id b)
  | DELETE, ApiPost id => Some (delete_post id b)
  | _, _ => None
  end.

Definition is_preflight (m : Method) : bool :=
  match m with
  | OPTIONS => true
  | _ => false
  end.

(** Hono's dispatch of one request against the store of [client]: the
    CORS middleware answers a preflight itself, an unmatched request gets
    the default 404, and an exception that escapes a handler gets the
    default 500. *)
Definition dispatch (m : Method) (request : Request) (d : Defaults) (s : Store) : Response * Store :=
  if under_api (path request) && is_preflight m then (no_body 204, s)
  else
    match route m (path request) (req_body request) with
    | None => (text "404 Not Found" 404, s)
    | Some handler =>
        let ran := run d handler s in
        (match outcome ran with
         | Resolved response => response
         | Rejected _ => text "Internal Server Error" 500
         end, store ran)
    end.

(** [app.fetch(request, env, ctx)]: a [HEAD] request is dispatched as [GET]
    and answered without a body.  No handler reads [env]. *)
Definition app_fetch (request : Request) (env : Bindings) (d : Defaults)
    (client : PrismaClient) (w : World) : Response * World :=
  let url := datasource_url client in
  let rs :=
    match method request with
    | HEAD =>
        let rs := dispatch GET request d (databases w url) in
        (mkResponse (status rs.1) NoBody, rs.2)
    | m => dispatch m request d (databases w url)
    end in
  (rs.1, mkWorld (prisma w) (<[url := rs.2]> (databases w))).

Definition is_string (v : JsValue) : bool :=
  match v with
  | JString _ => true
  | _ => false
  end.

(** [v.startsWith(prefix)], for a string [v]. *)
Definition startsWith (v : JsValue) (prefix : string) : bool :=
  match v with
  | JString s => String.prefix prefix s
  | _ => false
  end.

(** [!url || typeof url !== 'string' || !url.startsWith('prisma://')] *)
Definition misconfigured (url : JsValue) : bool :=
  negb (truthy url) || negb (is_string url) || negb (startsWith url "prisma://").

Definition misconfiguration_response : Response :=
  mkResponse 500 (Text "Internal Server Error: Database URL misconfiguration").

(** The exported [fetch]. *)
Definition fetch (request : Request) (env : Bindings) (d : Defaults) (w : World) : Response * World :=
  match prisma w with
  | Some client => app_fetch request env d client w
  | None =>
      if misconfigured (DATABASE_URL_ACCELERATE env) then (misconfiguration_response, w)
      else
        match DATABASE_URL_ACCELERATE env with
        | JString databaseUrl =>
            let client := initializePrismaClient databaseUrl in
            app_fetch request env d client (mkWorld (Some client) (databases w))
        | _ => (misconfiguration_response, w) (* not reached: the check passed *)
        end
  end.

(** The worker as it starts: no client yet. *)
Definition cold (dbs : string → Store) : World := mkWorld None dbs.

(** A run of requests, each delivered with its own environment. *)
Fixpoint serve (inputs : list (Request * Bindings * Defaults)) (w : World) : list Response * World :=
  match inputs with
  | [] => ([], w)
  | (request, env, d) :: rest =>
      let rw := fetch request env d w in
      let rest' := serve rest rw.2 in
      (rw.1 :: rest'.1, rest'.2)
  end.

(** ** Handlers against any storage *)

(** A storage back end: how each call settles in a state, and the state it
    leaves.  [exec] is the one for the store of the schema; the handlers
    themselves do not depend on which one answers. *)
Definition Executor (S : Type) : Type := ∀ X : Type, PrismaCall X → S → Settled X * S.

Record RanWith (S A : Type) : Type := mkRanWith
  { settled : Settled A;
    state : S;
    issued : list CallName }.
Arguments mkRanWith {S A} settled state issued.
Arguments settled {S A} r.
Arguments state {S A} r.
Arguments issued {S A} r.

Fixpoint run_with {S A : Type} (e : Executor S) (h : Handler A) (s : S) : RanWith S A :=
  match h with
  | Ret a => mkRanWith (Resolved a) s []
  | Throw error => mkRanWith (Rejected error) s []
  | Await call k =>
      let rs := e _ call s in
      let ran := run_with e (k rs.1) rs.2 in
      mkRanWith (settled ran) (state ran) (call_name call :: issued ran)
  end.

(** The handler resolves, with one of the given status codes and a body
    that is JSON or empty. *)
Definition answers {S : Type} (e : Executor S) (s : S) (h : Handler Response)
    (codes : list Z) : Prop :=
  ∃ response, settled (run_with e h s) = Resolved response
    ∧ status response ∈ codes
    ∧ ∀ t, body response ≠ Text t.

(** The calls that write. *)
Definition writes (c : CallName) : bool :=
  match c with
  | createCall | updateCall | deleteCall => true
  | findMany | findUnique => false
  end.

(** The routes whose handler reads the request body. *)
Definition reads_body (m : Method) (p : Path) : bool :=
  match m, p with
  | POST, ApiPosts | PUT, ApiPost _ | DELETE, ApiPost _ => true
  | _, _ => false
  end.

(** A body the handlers cannot get past: not JSON, or [null]. *)
Definition unreadable (b : ReqBody) : bool :=
  match b with
  | Malformed _ => true
  | Parsed v => nullish v
  end.

(** One request leaves the users alone and keeps the author and the
    creation time of every post it keeps. *)
Definition keeps_identity (s s' : Store) : Prop :=
  users s' = users s
  ∧ ∀ id r r', posts s !! id = Some r → posts s' !! id = Some r' →
      Row.authorId r' = Row.authorId r ∧ Row.createdAt r' = Row.createdAt r.

(** The methods whose routes only read. *)
Definition writes_nothing (m : Method) : bool :=
  match m with
  | GET | HEAD | OPTIONS => true
  | POST | PUT | DELETE => false
  end.

(** ** Sample data *)

(** Two users and three posts, and the defaults of one request, used to
    evaluate the handlers on concrete inputs. *)
Definition sample_store : Store :=
  mkStore
    (<["p1" := Row.mk 10 "First" "one" "u1" true]>
       (<["p2" := Row.mk 20 "Second" "two" "u2" false]>
          (<["p3" := Row.mk 15 "Third" "three" "u1" false]> ∅)))
    (<["u1" := "ann@example.org"]> (<["u2" := "bob@example.org"]> ∅)).

Definition sample_defaults : Defaults := mkDefaults "p9" 30.

(** The id of one NUL byte, as [/api/posts/%00] delivers it. *)
Definition nul_id : string := String Ascii.zero EmptyString.

(** [{"currentUserId": user}] *)
Definition as_user (user : string) : JsValue :=
  JObject [("currentUserId", JString user)].

(** The liveness probe, and environments with and without a usable
    connection string. *)
Definition probe : Request := mkRequest GET Root (Malformed "Unexpected end of JSON input").
Definition configured : Bindings := mkBindings (JString "prisma://accelerate.example/?api_key=k").
Definition unconfigured : Bindings := mkBindings JUndefined.

(** The same input, delivered with another environment. *)
Definition with_env (env : Bindings) (input : Request * Bindings * Defaults) :
    Request * Bindings * Defaults :=
  (input.1.1, env, input.2).

(** * Properties *)

#[local] Arguments strict_eq : simpl never.
#[local] Arguments truthy : simpl never.
#[local] Arguments update : simpl never.

(** ** Reading the request body *)

Lemma truthy_prop_object (v : JsValue) (key : string) :
  truthy (prop v key) = true → ∃ fields, v = JObject fields.
Proof. destruct v; cbn; try discriminate. eauto. Qed.

Lemma destructure_ok (v : JsValue) (key : string) :
  nullish v = false → destructure v key = Ret (prop v).
Proof. destruct v; simpl; congruence. Qed.

Lemma truthy_prop_not_nullish (v : JsValue) (key : string) :
  truthy (prop v key) = true → nullish v = false.
Proof. intros [fields ->]%truthy_prop_object. reflexivity. Qed.

(** The handlers once the body is read: what is left is the source from
    the first [if] on. *)
Lemma post_posts_parsed (v : JsValue) :
  nullish v = false →
  post_posts (Parsed v) =
    if negb (truthy (prop v "title")) || negb (truthy (prop v "content"))
       || negb (truthy (prop v "authorId")) then
      Ret (json (ErrorBody "Title, content, and author ID are required") 400)
    else
      try_catch
        (newPost ← await (CreatePost (prop v "title") (prop v "content") (prop v "authorId") true);
         Ret (json (PostBody newPost) 201))
        (λ error, Ret (json (ErrorDetails "Failed to create post" (error_details error)) 500)).
Proof.
  intros Hv. unfold post_posts, mbind, Handler_bind; simpl.
  rewrite (destructure_ok _ _ Hv). reflexivity.
Qed.

Lemma put_post_parsed (id : string) (v : JsValue) :
  nullish v = false →
  put_post id (Parsed v) =
    if negb (truthy (prop v "currentUserId")) then
      Ret (json (ErrorBody "Authentication required") 401)
    else
      try_catch
        (existingPost ← await (FindUniqueAuthorId id);
         match existingPost with
         | None => Ret (json (ErrorBody "Post not found") 404)
         | Some authorId =>
             if negb (strict_eq (JString authorId) (prop v "currentUserId")) then
               Ret (json (ErrorBody "Unauthorized: You are not the author of this post") 403)
             else
               updatedPost ← await (UpdatePost id (prop v "title") (prop v "content")
                                      (prop v "published"));
               Ret (json (PostBody updatedPost) 200)
         end)
        (λ error, Ret (json (ErrorDetails "Failed to update post" (error_details error)) 500)).
Proof.
  intros Hv. unfold put_post, mbind, Handler_bind; simpl.
  rewrite (destructure_ok _ _ Hv). reflexivity.
Qed.

Lemma delete_post_parsed (id : string) (v : JsValue) :
  nullish v = false →
  delete_post id (Parsed v) =
    if negb (truthy (prop v "currentUserId")) then
      Ret (json (ErrorBody "Authentication required") 401)
    else
      try_catch
        (existingPost ← await (FindUniqueAuthorId id);
         match existingPost with
         | None => Ret (json (ErrorBody "Post not found") 404)
         | Some authorId =>
             if negb (strict_eq (JString authorId) (prop v "currentUserId")) then
               Ret (json (ErrorBody "Unauthorized: You are not the author of this post") 403)
             else
               _ ← await (DeletePost id);
               Ret (no_body 204)
         end)
        (λ error, Ret (json (ErrorDetails "Failed to delete post" (error_details error)) 500)).
Proof.
  intros Hv. unfold delete_post, mbind, Handler_bind; simpl.
  rewrite (destructure_ok _ _ Hv). reflexivity.
Qed.

(** ** The ownership check *)

(** Past the authentication check, both mutating handlers look the post
    up; this is what they do on each answer of the lookup. *)
Lemma run_put_post_found (d : Defaults) (s : Store) (id : string) (r : Row.t) (v : JsValue) :
  posts s !! id = Some r →
  truthy (prop v "currentUserId") = true →
  run d (put_post id (Parsed v)) s =
    if strict_eq (JString (Row.authorId r)) (prop v "currentUserId") then
      let rs := update id (prop v "title") (prop v "content") (prop v "published") s in
      mkRan
        (Resolved match rs.1 with
                  | Resolved updatedPost => json (PostBody updatedPost) 200
                  | Rejected error =>
                      json (ErrorDetails "Failed to update post" (error_details error)) 500
                  end)
        rs.2 [findUnique; updateCall]
    else
      mkRan (Resolved (json (ErrorBody "Unauthorized: You are not the author of this post") 403))
        s [findUnique].
Proof.
  intros Hr Hc. rewrite put_post_parsed by (by eapply truthy_prop_not_nullish).
  rewrite Hc; simpl. unfold find_author_id. rewrite Hr; simpl.
  destruct (strict_eq _ _); simpl; [|done].
  by destruct (update id (prop v "title") (prop v "content") (prop v "published") s) as [[?|?] ?].
Qed.

Lemma run_delete_post_found (d : Defaults) (s : Store) (id : string) (r : Row.t) (v : JsValue) :
  posts s !! id = Some r →
  truthy (prop v "currentUserId") = true →
  run d (delete_post id (Parsed v)) s =
    if strict_eq (JString (Row.authorId r)) (prop v "currentUserId") then
      mkRan (Resolved (no_body 204)) (mkStore (delete id (posts s)) (users s))
        [findUnique; deleteCall]
    else
      mkRan (Resolved (json (ErrorBody "Unauthorized: You are not the author of this post") 403))
        s [findUnique].
Proof.
  intros Hr Hc. rewrite delete_post_parsed by (by eapply truthy_prop_not_nullish).
  rewrite Hc; simpl. unfold find_author_id. rewrite Hr; simpl.
  destruct (strict_eq _ _); simpl; [|done].
  unfold delete_row. by rewrite Hr.
Qed.

Lemma run_put_post_absent (d : Defaults) (s : Store) (id : string) (v : JsValue) :
  posts s !! id = None →
  truthy (prop v "currentUserId") = true →
  run d (put_post id (Parsed v)) s =
    mkRan (Resolved (if has_nul id
                     then json (ErrorDetails "Failed to update post"
                                  (error_details nul_error)) 500
                     else json (ErrorBody "Post not found") 404)) s [findUnique].
Proof.
  intros Hr Hc. rewrite put_post_parsed by (by eapply truthy_prop_not_nullish).
  rewrite Hc; simpl. unfold find_author_id. rewrite Hr. by destruct (has_nul id).
Qed.

Lemma run_delete_post_absent (d : Defaults) (s : Store) (id : string) (v : JsValue) :
  posts s !! id = None →
  truthy (prop v "currentUserId") = true →
  run d (delete_post id (Parsed v)) s =
    mkRan (Resolved (if has_nul id
                     then json (ErrorDetails "Failed to delete post"
                                  (error_details nul_error)) 500
                     else json (ErrorBody "Post not found") 404)) s [findUnique].
Proof.
  intros Hr Hc. rewrite delete_post_parsed by (by eapply truthy_prop_not_nullish).
  rewrite Hc; simpl. unfold find_author_id. rewrite Hr. by destruct (has_nul id).
Qed.

(** C1: a PUT or DELETE whose body carries a [currentUserId] that is
    present (truthy) but differs from the stored post's [authorId] is
    answered 403 with [{error: "Unauthorized: You are not the author of
    this post"}]; the handler made the lookup and nothing else, and the
    store (so the post, and every other row) is as it was. *)
Theorem not_author_403 (d : Defaults) (s : Store) (id : string) (r : Row.t) (v : JsValue) :
  posts s !! id = Some r →
  truthy (prop v "currentUserId") = true →
  strict_eq (JString (Row.authorId r)) (prop v "currentUserId") = false →
  run d (put_post id (Parsed v)) s =
    mkRan (Resolved (json (ErrorBody "Unauthorized: You are not the author of this post") 403))
      s [findUnique]
  ∧ run d (delete_post id (Parsed v)) s =
    mkRan (Resolved (json (ErrorBody "Unauthorized: You are not the author of this post") 403))
      s [findUnique].
Proof.
  intros Hr Hc Hne. split.
  - rewrite (run_put_post_found d s id r v Hr Hc). by rewrite Hne.
  - rewrite (run_delete_post_found d s id r v Hr Hc). by rewrite Hne.
Qed.

Lemma not_author_403_witness :
  run sample_defaults (put_post "p1" (Parsed (as_user "u2"))) sample_store =
    mkRan (Resolved (json (ErrorBody "Unauthorized: You are not the author of this post") 403))
      sample_store [findUnique]
  ∧ run sample_defaults (delete_post "p1" (Parsed (as_user "u2"))) sample_store =
    mkRan (Resolved (json (ErrorBody "Unauthorized: You are not the author of this post") 403))
      sample_store [findUnique].
Proof.
  apply (not_author_403 sample_defaults sample_store "p1"
           (Row.mk 10 "First" "one" "u1" true) (as_user "u2")); reflexivity.
Defined.

(** ** The authentication check *)

(** C2, as stated, fails on the body [null]: it is well-formed JSON and has
    no [currentUserId], yet the destructuring throws before the check, and
    the request is answered with Hono's 500, not with 401. *)
Lemma auth_required_null_body :
  truthy (prop JNull "currentUserId") = false
  ∧ (∃ message, put_post "p1" (Parsed JNull) = Throw (ErrorObject "TypeError" message))
  ∧ (∃ message, delete_post "p1" (Parsed JNull) = Throw (ErrorObject "TypeError" message))
  ∧ (dispatch PUT (mkRequest PUT (ApiPost "p1") (Parsed JNull)) sample_defaults sample_store).1
    = text "Internal Server Error" 500
  ∧ (dispatch DELETE (mkRequest DELETE (ApiPost "p1") (Parsed JNull)) sample_defaults sample_store).1
    = text "Internal Server Error" 500.
Proof. repeat split; try reflexivity; eexists; reflexivity. Qed.

(** C2, amended: when the body parses to a JSON value other than [null]
    and its [currentUserId] is missing or falsy, PUT and DELETE return 401
    with [{error: "Authentication required"}] at once: the handler is a
    bare return, whatever the id, so it awaits no call, and running it
    leaves any store untouched. *)
Theorem auth_required_401 (id : string) (v : JsValue) :
  nullish v = false →
  truthy (prop v "currentUserId") = false →
  put_post id (Parsed v) = Ret (json (ErrorBody "Authentication required") 401)
  ∧ delete_post id (Parsed v) = Ret (json (ErrorBody "Authentication required") 401)
  ∧ ∀ (d : Defaults) (s : Store),
      run d (put_post id (Parsed v)) s =
        mkRan (Resolved (json (ErrorBody "Authentication required") 401)) s []
      ∧ run d (delete_post id (Parsed v)) s =
        mkRan (Resolved (json (ErrorBody "Authentication required") 401)) s [].
Proof.
  intros Hv Hc.
  rewrite (put_post_parsed id v Hv), (delete_post_parsed id v Hv), Hc. simpl.
  repeat split.
Qed.

Lemma auth_required_401_witness :
  put_post "nowhere" (Parsed (JObject [("currentUserId", JString EmptyString)]))
    = Ret (json (ErrorBody "Authentication required") 401)
  ∧ delete_post "nowhere" (Parsed (JObject [("currentUserId", JString EmptyString)]))
    = Ret (json (ErrorBody "Authentication required") 401)
  ∧ ∀ (d : Defaults) (s : Store),
      run d (put_post "nowhere" (Parsed (JObject [("currentUserId", JString EmptyString)]))) s =
        mkRan (Resolved (json (ErrorBody "Authentication required") 401)) s []
      ∧ run d (delete_post "nowhere" (Parsed (JObject [("currentUserId", JString EmptyString)]))) s =
        mkRan (Resolved (json (ErrorBody "Authentication required") 401)) s [].
Proof.
  apply (auth_required_401 "nowhere" (JObject [("currentUserId", JString EmptyString)])); reflexivity.
Defined.

(** ** Posts that are not there *)

Lemma run_get_post_absent (d : Defaults) (s : Store) (id : string) :
  posts s !! id = None →
  run d (get_post id) s =
    mkRan (Resolved (if has_nul id
                     then json (ErrorDetails "Failed to fetch post"
                                  (error_details nul_error)) 500
                     else json (ErrorBody "Post not found") 404)) s [findUnique].
Proof. intros Hr. simpl. unfold find_unique. rewrite Hr. by destruct (has_nul id). Qed.

(** A DELETE that answered 204 has removed the row. *)
Lemma delete_204_absent (d : Defaults) (s : Store) (id : string) (b : ReqBody) :
  outcome (run d (delete_post id b) s) = Resolved (no_body 204) →
  posts (store (run d (delete_post id b) s)) !! id = None.
Proof.
  destruct b as [message|v]; [discriminate|].
  destruct (nullish v) eqn:Hv; [by destruct v|].
  destruct (truthy (prop v "currentUserId")) eqn:Hc.
  - destruct (posts s !! id) as [r|] eqn:Hr.
    + rewrite (run_delete_post_found d s id r v Hr Hc).
      destruct (strict_eq _ _); simpl; [|discriminate].
      intros _. apply lookup_delete_eq.
    + rewrite (run_delete_post_absent d s id v Hr Hc). by destruct (has_nul id).
  - rewrite (delete_post_parsed id v Hv), Hc. discriminate.
Qed.

Lemma update_absent (id : string) (t c p : JsValue) (s : Store) :
  posts s !! id = None → ∃ error, update id t c p s = (Rejected error, s).
Proof.
  intros Hnone. unfold update.
  destruct (string_update t) as [|x|], (string_update c) as [|y|], (bool_update p) as [|z|];
    try (eexists; reflexivity);
    match goal with |- context [if ?b then _ else _] => destruct b end;
    rewrite ?Hnone; eexists; reflexivity.
Qed.

(** On a table whose keys hold no NUL byte, an id that holds one is
    refused by every call that takes it. *)
Lemma nul_id_refused (id : string) (s : Store) :
  (∀ key, is_Some (posts s !! key) → has_nul key = false) →
  has_nul id = true →
  find_unique id s = Rejected nul_error
  ∧ find_author_id id s = Rejected nul_error
  ∧ delete_row id s = (Rejected nul_error, s)
  ∧ ∀ t c p, ∃ error, update id t c p s = (Rejected error, s).
Proof.
  intros Hkeys Hid.
  assert (posts s !! id = None) as Hnone.
  { destruct (posts s !! id) eqn:Hr; [|done].
    rewrite (Hkeys id) in Hid; [done|by rewrite Hr]. }
  unfold find_unique, find_author_id, delete_row. rewrite Hnone, Hid.
  repeat split. intros t c p. by apply update_absent.
Qed.

(** C5, as stated, fails on an id that holds a NUL byte, as the path
    [/api/posts/%00] delivers: it refers to no stored post, yet the
    database refuses it as a parameter, the lookup rejects, and the
    [catch] of each handler answers 500, not 404. *)
Lemma absent_nul_id_500 :
  posts sample_store !! nul_id = None
  ∧ run sample_defaults (get_post nul_id) sample_store =
      mkRan (Resolved (json (ErrorDetails "Failed to fetch post"
                               "invalid byte sequence for encoding UTF8: 0x00") 500))
        sample_store [findUnique]
  ∧ run sample_defaults (put_post nul_id (Parsed (as_user "u1"))) sample_store =
      mkRan (Resolved (json (ErrorDetails "Failed to update post"
                               "invalid byte sequence for encoding UTF8: 0x00") 500))
        sample_store [findUnique]
  ∧ run sample_defaults (delete_post nul_id (Parsed (as_user "u1"))) sample_store =
      mkRan (Resolved (json (ErrorDetails "Failed to delete post"
                               "invalid byte sequence for encoding UTF8: 0x00") 500))
        sample_store [findUnique].
Proof. repeat split. Qed.

(** C5, amended: for an id that holds no NUL byte and refers to no stored
    post, GET answers 404 with [{error: "Post not found"}], and so do PUT
    and DELETE for any present [currentUserId], whoever it names: the
    lookup is the only call made, the ownership check is never reached,
    and the store is unchanged.  By [delete_204_absent] this covers an id
    whose post was deleted. *)
Theorem absent_post_404 (d : Defaults) (s : Store) (id : string) (v : JsValue) :
  has_nul id = false →
  posts s !! id = None →
  truthy (prop v "currentUserId") = true →
  run d (get_post id) s = mkRan (Resolved (json (ErrorBody "Post not found") 404)) s [findUnique]
  ∧ run d (put_post id (Parsed v)) s =
      mkRan (Resolved (json (ErrorBody "Post not found") 404)) s [findUnique]
  ∧ run d (delete_post id (Parsed v)) s =
      mkRan (Resolved (json (ErrorBody "Post not found") 404)) s [findUnique].
Proof.
  intros Hid Hr Hc. split; [|split].
  - by rewrite (run_get_post_absent d s id Hr), Hid.
  - by rewrite (run_put_post_absent d s id v Hr Hc), Hid.
  - by rewrite (run_delete_post_absent d s id v Hr Hc), Hid.
Qed.

(** The store left by the author's DELETE of ["p1"]. *)
Lemma absent_post_404_witness :
  let s := store (run sample_defaults (delete_post "p1" (Parsed (as_user "u1"))) sample_store) in
  outcome (run sample_defaults (delete_post "p1" (Parsed (as_user "u1"))) sample_store)
    = Resolved (no_body 204)
  ∧ run sample_defaults (get_post "p1") s =
      mkRan (Resolved (json (ErrorBody "Post not found") 404)) s [findUnique]
  ∧ run sample_defaults (put_post "p1" (Parsed (as_user "u1"))) s =
      mkRan (Resolved (json (ErrorBody "Post not found") 404)) s [findUnique]
  ∧ run sample_defaults (delete_post "p1" (Parsed (as_user "u1"))) s =
      mkRan (Resolved (json (ErrorBody "Post not found") 404)) s [findUnique].
Proof.
  intros s. split; [reflexivity|].
  apply (absent_post_404 sample_defaults s "p1" (as_user "u1")); reflexivity.
Defined.

(** ** Creating a post *)

(** C6, as stated, fails on the body [null] (and on a body that is not
    JSON): [title], [content] and [authorId] are all missing, yet the
    handler throws while reading the body and the request is answered with
    Hono's 500, not with 400. *)
Lemma required_fields_null_body :
  truthy (prop JNull "title") = false
  ∧ (∃ message, post_posts (Parsed JNull) = Throw (ErrorObject "TypeError" message))
  ∧ post_posts (Malformed "Unexpected end of JSON input")
    = Throw (ErrorObject "SyntaxError" "Unexpected end of JSON input")
  ∧ (dispatch POST (mkRequest POST ApiPosts (Parsed JNull)) sample_defaults sample_store).1
    = text "Internal Server Error" 500.
Proof. repeat split; try reflexivity; eexists; reflexivity. Qed.

(** C6, amended: when the body parses to a JSON value other than [null]
    and any of [title], [content], [authorId] is missing or falsy, POST
    returns 400 with [{error: "Title, content, and author ID are
    required"}]; the handler is a bare return, so no storage call is made
    and no post is created. *)
Theorem required_fields_400 (v : JsValue) :
  nullish v = false →
  truthy (prop v "title") && truthy (prop v "content") && truthy (prop v "authorId") = false →
  post_posts (Parsed v) = Ret (json (ErrorBody "Title, content, and author ID are required") 400)
  ∧ ∀ (d : Defaults) (s : Store),
      run d (post_posts (Parsed v)) s =
        mkRan (Resolved (json (ErrorBody "Title, content, and author ID are required") 400)) s [].
Proof.
  intros Hv Hf. rewrite (post_posts_parsed v Hv).
  assert (negb (truthy (prop v "title")) || negb (truthy (prop v "content"))
          || negb (truthy (prop v "authorId")) = true) as ->.
  { destruct (truthy (prop v "title")), (truthy (prop v "content")),
      (truthy (prop v "authorId")); done. }
  split; reflexivity.
Qed.

Lemma required_fields_400_witness :
  let v := JObject [("title", JString "T"); ("content", JString EmptyString); ("authorId", JString "u1")] in
  post_posts (Parsed v) = Ret (json (ErrorBody "Title, content, and author ID are required") 400)
  ∧ ∀ (d : Defaults) (s : Store),
      run d (post_posts (Parsed v)) s =
        mkRan (Resolved (json (ErrorBody "Title, content, and author ID are required") 400)) s [].
Proof.
  intros v. apply (required_fields_400 v); reflexivity.
Defined.

(** What the store does with a create: it refuses it and stays as it is,
    or all three values are strings without a NUL byte, the author is a
    user and the generated id is free, and the row is inserted as passed. *)
Lemma create_cases (d : Defaults) (title content authorId : JsValue) (flag : bool) (s : Store) :
  (∃ error, create d title content authorId flag s = (Rejected error, s))
  ∨ (∃ t c a email,
       title = JString t ∧ content = JString c ∧ authorId = JString a
       ∧ has_nul t || has_nul c || has_nul a = false
       ∧ users s !! a = Some email ∧ posts s !! uuid d = None
       ∧ create d title content authorId flag s =
           (Resolved (Post.mk (uuid d) (now d) t c a flag),
            mkStore (<[uuid d := Row.mk (now d) t c a flag]> (posts s)) (users s))).
Proof.
  unfold create.
  destruct title as [| | | |t| |], content as [| | | |c| |], authorId as [| | | |a| |];
    try (left; eexists; reflexivity).
  destruct (has_nul t || has_nul c || has_nul a) eqn:Hnul; [left; eexists; reflexivity|].
  destruct (users s !! a) as [email|] eqn:Hu; [|left; eexists; reflexivity].
  destruct (posts s !! uuid d) eqn:Hfresh; [left; eexists; reflexivity|].
  right. by exists t, c, a, email.
Qed.

Lemma run_get_post_found (d : Defaults) (s : Store) (id : string) (r : Row.t) (email : string) :
  posts s !! id = Some r →
  users s !! Row.authorId r = Some email →
  run d (get_post id) s =
    mkRan (Resolved (json (PostWithAuthorBody
                             (PostWithAuthor.mk (post_of id r) (User.mk (Row.authorId r) email)))
                       200))
      s [findUnique].
Proof.
  intros Hr Hu. simpl. unfold find_unique. rewrite Hr. unfold with_author. simpl.
  by rewrite Hu.
Qed.




(** ** Bodies that are not JSON *)

(** C9: PUT and DELETE read the body before the authentication check, so
    on a body that [JSON.parse] rejects (the empty body of a bodyless
    DELETE included) the handler throws the [SyntaxError]: it awaits no
    call and returns none of its own responses, and Hono answers with its
    default 500, whatever the id and the store. *)
Theorem malformed_body_throws (id message : string) :
  put_post id (Malformed message) = Throw (ErrorObject "SyntaxError" message)
  ∧ delete_post id (Malformed message) = Throw (ErrorObject "SyntaxError" message)
  ∧ ∀ (d : Defaults) (s : Store),
      dispatch PUT (mkRequest PUT (ApiPost id) (Malformed message)) d s
        = (text "Internal Server Error" 500, s)
      ∧ dispatch DELETE (mkRequest DELETE (ApiPost id) (Malformed message)) d s
        = (text "Internal Server Error" 500, s).
Proof. repeat split. Qed.

(** ** Updating a post *)


(** What the store does with an update of a stored row. *)
Lemma update_accepted_row (id : string) (t c p : JsValue) (s : Store) (old : Row.t) :
  posts s !! id = Some old →
  update_accepted t c p = true →
  let r := Row.mk (Row.createdAt old)
             (apply_update (string_update t) (Row.title old))
             (apply_update (string_update c) (Row.content old))
             (Row.authorId old)
             (apply_update (bool_update p) (Row.published old)) in
  update id t c p s = (Resolved (post_of id r), mkStore (<[id := r]> (posts s)) (users s)).
Proof.
  intros Hold. unfold update_accepted, update.
  destruct (string_update t) as [|x|], (string_update c) as [|y|], (bool_update p) as [|z|];
    simpl; try discriminate; rewrite ?andb_true_r; intros Hst; rewrite ?Hst, Hold;
    try reflexivity.
  all: apply andb_true_iff in Hst as [-> ->]; reflexivity.
Qed.

Lemma update_refused (id : string) (t c p : JsValue) (s : Store) :
  update_accepted t c p = false → ∃ error, update id t c p s = (Rejected error, s).
Proof.
  unfold update_accepted, update.
  destruct (string_update t) as [|x|], (string_update c) as [|y|], (bool_update p) as [|z|];
    simpl; try (intros _; eexists; reflexivity); rewrite ?andb_true_r;
    try discriminate; intros ->; eexists; reflexivity.
Qed.



(** ** Listing the posts *)

#[global] Instance foreign_key_ok_dec (s : Store) : Decision (foreign_key_ok s).
Proof. unfold foreign_key_ok. apply _. Defined.

#[global] Instance newest_first_trans : Transitive newest_first.
Proof. unfold newest_first. intros a b c Hab Hbc. lia. Qed.

#[global] Instance newest_first_total : Total newest_first.
Proof. unfold newest_first. intros a b. lia. Qed.

Lemma with_author_Some (s : Store) (p : Post.t) (found : PostWithAuthor.t) :
  with_author s p = Some found →
  PostWithAuthor.post found = p
  ∧ User.id (PostWithAuthor.author found) = Post.authorId p
  ∧ users s !! Post.authorId p = Some (User.email (PostWithAuthor.author found)).
Proof.
  unfold with_author. destruct (users s !! Post.authorId p) as [email|]; simpl; [|done].
  by intros [= <-].
Qed.

Lemma elem_of_all_posts (s : Store) (p : Post.t) :
  p ∈ all_posts s ↔ ∃ r, posts s !! Post.id p = Some r ∧ p = post_of (Post.id p) r.
Proof.
  unfold all_posts. rewrite list_elem_of_fmap. split.
  - intros [[id r] [-> Hin%elem_of_map_to_list]]. eauto.
  - intros (r & Hr & Hp). exists (Post.id p, r). split; [done|].
    by apply elem_of_map_to_list.
Qed.

Lemma length_all_posts (s : Store) : length (all_posts s) = size (posts s).
Proof. unfold all_posts. by rewrite length_fmap, length_map_to_list. Qed.

Lemma join_all_posts (s : Store) :
  foreign_key_ok s →
  ∃ joined, mapM (with_author s) (all_posts s) = Some joined
    ∧ PostWithAuthor.post <$> joined = all_posts s
    ∧ Forall (λ found, with_author s (PostWithAuthor.post found) = Some found) joined.
Proof.
  intros Hfk.
  destruct (mapM (with_author s) (all_posts s)) as [joined|] eqn:Hj.
  - exists joined. split; [done|]. apply mapM_Some_1 in Hj.
    induction Hj as [|p found ps founds Hp _ [IH1 IH2]]; [done|].
    destruct (with_author_Some s p found Hp) as (Hpost & _).
    split.
    + by rewrite fmap_cons, Hpost, IH1.
    + constructor; [by rewrite Hpost|done].
  - apply mapM_None_1, Exists_exists in Hj as (p & Hin & Hnone).
    apply list_elem_of_In, elem_of_all_posts in Hin as (r & Hr & Hp).
    apply Hfk in Hr as [email Hemail]. unfold with_author in Hnone.
    rewrite Hp in Hnone. simpl in Hnone. by rewrite Hemail in Hnone.
Qed.

Lemma StronglySorted_lookup_lt {A : Type} (R : relation A) (l : list A) :
  StronglySorted R l →
  ∀ (i j : nat) (a b : A), (i < j)%nat → l !! i = Some a → l !! j = Some b → R a b.
Proof.
  induction 1 as [|x l _ IH Hall]; intros i j a b Hij Hi Hj; [done|].
  destruct j as [|j]; [lia|]. destruct i as [|i]; simpl in *.
  - simplify_eq. exact (Forall_lookup_1 _ _ _ _ Hall Hj).
  - apply (IH i j); [lia|done..].
Qed.

Lemma NoDup_all_posts_ids (s : Store) : NoDup (Post.id <$> all_posts s).
Proof.
  unfold all_posts. rewrite <- list_fmap_compose.
  apply (NoDup_fst_map_to_list (posts s)).
Qed.

(** C4: in every store that satisfies the foreign key of the schema, GET
    /api/posts makes one [findMany] and answers 200 with the whole table
    (no pagination): every stored post is listed, with its stored columns
    and with the [id] and [email] of its author and nothing else of the
    author; every listed post is a stored one, listed under its own id
    once; and any post listed before another has a [createdAt] at least
    as large.  The store is unchanged. *)
Theorem get_posts_newest_first (d : Defaults) (s : Store) :
  foreign_key_ok s →
  ∃ listed : list PostWithAuthor.t,
    run d get_posts s = mkRan (Resolved (json (PostList listed) 200)) s [findMany]
    ∧ (∀ id r, posts s !! id = Some r →
         ∃ email, users s !! Row.authorId r = Some email
           ∧ PostWithAuthor.mk
               (Post.mk id (Row.createdAt r) (Row.title r) (Row.content r) (Row.authorId r)
                  (Row.published r))
               (User.mk (Row.authorId r) email) ∈ listed)
    ∧ (∀ found, found ∈ listed →
         ∃ r email, posts s !! Post.id (PostWithAuthor.post found) = Some r
           ∧ users s !! Row.authorId r = Some email
           ∧ found = PostWithAuthor.mk
                       (Post.mk (Post.id (PostWithAuthor.post found)) (Row.createdAt r)
                          (Row.title r) (Row.content r) (Row.authorId r) (Row.published r))
                       (User.mk (Row.authorId r) email))
    ∧ NoDup ((λ found, Post.id (PostWithAuthor.post found)) <$> listed)
    ∧ length listed = size (posts s)
    ∧ (∀ (i j : nat) (a b : PostWithAuthor.t),
         (i < j)%nat → listed !! i = Some a → listed !! j = Some b →
         (Post.createdAt (PostWithAuthor.post a) >= Post.createdAt (PostWithAuthor.post b))%Z).
Proof.
  intros Hfk. destruct (join_all_posts s Hfk) as (joined & Hj & Hposts & Hauthors).
  exists (merge_sort newest_first joined).
  pose proof (merge_sort_Permutation newest_first joined) as Hperm.
  assert (∀ found, found ∈ joined →
            ∃ r email, posts s !! Post.id (PostWithAuthor.post found) = Some r
              ∧ users s !! Row.authorId r = Some email
              ∧ found = PostWithAuthor.mk
                          (post_of (Post.id (PostWithAuthor.post found)) r)
                          (User.mk (Row.authorId r) email)) as Hstored.
  { intros found Hin.
    assert (PostWithAuthor.post found ∈ all_posts s) as Hp.
    { rewrite <- Hposts. apply list_elem_of_fmap. by exists found. }
    apply elem_of_all_posts in Hp as (r & Hr & Hp).
    apply list_elem_of_lookup in Hin as [i Hi].
    pose proof (Forall_lookup_1 _ _ _ _ Hauthors Hi) as Ha. cbv beta in Ha.
    destruct (with_author_Some s _ found Ha) as (_ & Hid & Hemail).
    rewrite Hp in Hid, Hemail. simpl in Hid, Hemail.
    exists r, (User.email (PostWithAuthor.author found)).
    split; [done|split; [done|]].
    destruct found as [p [uid email]]. simpl in *. by rewrite <- Hp, Hid. }
  split; [|split; [|split; [|split; [|split]]]].
  - simpl. unfold find_many. by rewrite Hj.
  - intros id r Hr. destruct (Hfk id r Hr) as [email Hemail]. exists email.
    split; [done|]. rewrite Hperm.
    assert (post_of id r ∈ all_posts s) as Hp.
    { apply elem_of_all_posts. by exists r. }
    rewrite <- Hposts in Hp. apply list_elem_of_fmap in Hp as (found & Hfound & Hin).
    destruct (Hstored found Hin) as (r' & email' & Hr' & Hemail' & Heq).
    rewrite <- Hfound in Hr', Heq. simpl in Hr', Heq.
    rewrite Hr in Hr'. injection Hr' as <-. rewrite Hemail in Hemail'. injection Hemail' as <-.
    rewrite Heq in Hin. exact Hin.
  - intros found Hin. rewrite Hperm in Hin. exact (Hstored found Hin).
  - rewrite Hperm. rewrite (list_fmap_compose PostWithAuthor.post Post.id), Hposts.
    apply NoDup_all_posts_ids.
  - rewrite <- length_all_posts, <- Hposts, length_fmap. by rewrite Hperm.
  - intros i j a b Hij Hi Hj'. apply Z.le_ge.
    exact (StronglySorted_lookup_lt newest_first _
             (StronglySorted_merge_sort newest_first joined) i j a b Hij Hi Hj').
Qed.

Lemma sample_store_foreign_key_ok : foreign_key_ok sample_store.
Proof. apply (bool_decide_unpack _). vm_compute. exact I. Qed.

Lemma get_posts_newest_first_witness :
  ∃ listed : list PostWithAuthor.t,
    run sample_defaults get_posts sample_store
      = mkRan (Resolved (json (PostList listed) 200)) sample_store [findMany]
    ∧ (∀ id r, posts sample_store !! id = Some r →
         ∃ email, users sample_store !! Row.authorId r = Some email
           ∧ PostWithAuthor.mk
               (Post.mk id (Row.createdAt r) (Row.title r) (Row.content r) (Row.authorId r)
                  (Row.published r))
               (User.mk (Row.authorId r) email) ∈ listed)
    ∧ (∀ found, found ∈ listed →
         ∃ r email, posts sample_store !! Post.id (PostWithAuthor.post found) = Some r
           ∧ users sample_store !! Row.authorId r = Some email
           ∧ found = PostWithAuthor.mk
                       (Post.mk (Post.id (PostWithAuthor.post found)) (Row.createdAt r)
                          (Row.title r) (Row.content r) (Row.authorId r) (Row.published r))
                       (User.mk (Row.authorId r) email))
    ∧ NoDup ((λ found, Post.id (PostWithAuthor.post found)) <$> listed)
    ∧ length listed = size (posts sample_store)
    ∧ (∀ (i j : nat) (a b : PostWithAuthor.t),
         (i < j)%nat → listed !! i = Some a → listed !! j = Some b →
         (Post.createdAt (PostWithAuthor.post a) >= Post.createdAt (PostWithAuthor.post b))%Z).
Proof.
  apply (get_posts_newest_first sample_defaults sample_store).
  apply (bool_decide_unpack _). vm_compute. exact I.
Defined.

(** What the sample store lists: newest first. *)
Example get_posts_sample :
  outcome (run sample_defaults get_posts sample_store) =
    Resolved (json (PostList
      [ PostWithAuthor.mk (Post.mk "p2" 20 "Second" "two" "u2" false) (User.mk "u2" "bob@example.org");
        PostWithAuthor.mk (Post.mk "p3" 15 "Third" "three" "u1" false) (User.mk "u1" "ann@example.org");
        PostWithAuthor.mk (Post.mk "p1" 10 "First" "one" "u1" true) (User.mk "u1" "ann@example.org") ])
      200).
Proof. vm_compute. reflexivity. Qed.

(** The foreign key is an invariant of the store: no call breaks it, so
    no handler does. *)
Lemma exec_foreign_key_ok {X : Type} (d : Defaults) (call : PrismaCall X) (s : Store) :
  foreign_key_ok s → foreign_key_ok (exec d call s).2.
Proof.
  intros Hfk. destruct call as [| | |t c a p|id t c p|id]; simpl; try done.
  - destruct (create_cases d t c a p s)
      as [[error ->]|(t' & c' & a' & email & _ & _ & _ & _ & Hu & _ & ->)]; [done|].
    apply map_Forall_insert_2; [|done]. simpl. by rewrite Hu.
  - destruct (update_accepted t c p) eqn:Hok.
    + destruct (posts s !! id) as [old|] eqn:Hold.
      * rewrite (update_accepted_row id t c p s old Hold Hok). simpl.
        apply map_Forall_insert_2; [exact (Hfk id old Hold)|done].
      * by destruct (update_absent id t c p s Hold) as [error ->].
    + by destruct (update_refused id t c p s Hok) as [error ->].
  - unfold delete_row. destruct (posts s !! id); [|done]. simpl.
    by apply map_Forall_delete.
Qed.

Lemma run_foreign_key_ok {A : Type} (d : Defaults) (h : Handler A) (s : Store) :
  foreign_key_ok s → foreign_key_ok (store (run d h s)).
Proof.
  revert s. induction h as [a|error|X call k IH]; intros s Hfk; simpl; [done..|].
  apply IH. by apply exec_foreign_key_ok.
Qed.

(** ** The [prisma] singleton *)

Lemma fetch_initialized (request : Request) (env : Bindings) (d : Defaults) (w : World)
    (client : PrismaClient) :
  prisma w = Some client → fetch request env d w = app_fetch request env d client w.
Proof. intros Hp. unfold fetch. by rewrite Hp. Qed.

Lemma app_fetch_prisma (request : Request) (env : Bindings) (d : Defaults)
    (client : PrismaClient) (w : World) :
  prisma (app_fetch request env d client w).2 = prisma w.
Proof. reflexivity. Qed.

(** The application never reads the environment. *)
Lemma app_fetch_env (request : Request) (env env' : Bindings) (d : Defaults)
    (client : PrismaClient) (w : World) :
  app_fetch request env d client w = app_fetch request env' d client w.
Proof. reflexivity. Qed.

(** A request that finds no client and brings a usable connection string
    initialises the client from it. *)
Lemma fetch_cold_initializes (request : Request) (url : string) (d : Defaults)
    (dbs : string → Store) :
  misconfigured (JString url) = false →
  prisma (fetch request (mkBindings (JString url)) d (cold dbs)).2
    = Some (initializePrismaClient url).
Proof. intros Hok. unfold fetch. simpl. by rewrite Hok. Qed.

(** C8, as stated, fails both ways once the value differs between
    requests.  After a request has initialised the client, a request that
    arrives without the value is served, not refused; and a worker whose
    first request arrived without the value serves the next request that
    brings one, so nothing was settled at process start. *)
Lemma misconfiguration_checked_per_request :
  misconfigured (DATABASE_URL_ACCELERATE unconfigured) = true
  ∧ misconfigured (DATABASE_URL_ACCELERATE configured) = false
  ∧ (serve [(probe, configured, sample_defaults); (probe, unconfigured, sample_defaults)]
       (cold (λ _, sample_store))).1
    = [text "Hono Blog Backend (on Cloudflare Workers) is running!" 200;
       text "Hono Blog Backend (on Cloudflare Workers) is running!" 200]
  ∧ (serve [(probe, unconfigured, sample_defaults); (probe, configured, sample_defaults)]
       (cold (λ _, sample_store))).1
    = [misconfiguration_response;
       text "Hono Blog Backend (on Cloudflare Workers) is running!" 200].
Proof. repeat split. Qed.

(** C8, amended: while the client is not initialised, a request whose
    connection string is absent, not a string, or does not start with
    [prisma://] receives the plain-text 500 response, whatever its method,
    path and body, so before any route handler runs, and leaves the worker
    as it was, client still unset; the check is therefore made again on
    each such request, and a run of them receives nothing but that
    response. *)
Theorem misconfigured_500 (inputs : list (Request * Bindings * Defaults)) (w : World) :
  prisma w = None →
  Forall (λ input, misconfigured (DATABASE_URL_ACCELERATE input.1.2) = true) inputs →
  serve inputs w = (replicate (length inputs) misconfiguration_response, w)
  ∧ misconfiguration_response
    = mkResponse 500 (Text "Internal Server Error: Database URL misconfiguration").
Proof.
  intros Hcold Hbad. split; [|done].
  induction Hbad as [|[[request env] d] rest Hmis _ IH]; [done|].
  simpl in *. unfold fetch. rewrite Hcold, Hmis. simpl. by rewrite IH.
Qed.

Lemma misconfigured_500_witness :
  serve [(probe, unconfigured, sample_defaults);
         (mkRequest GET ApiPosts (Parsed JNull), mkBindings (JString "postgres://db"),
          sample_defaults);
         (mkRequest DELETE (ApiPost "p1") (Parsed (as_user "u1")), mkBindings (JNumber 1%float),
          sample_defaults)]
    (cold (λ _, sample_store))
  = (replicate 3 misconfiguration_response, cold (λ _, sample_store))
  ∧ misconfiguration_response
    = mkResponse 500 (Text "Internal Server Error: Database URL misconfiguration").
Proof.
  apply (misconfigured_500
           [(probe, unconfigured, sample_defaults);
            (mkRequest GET ApiPosts (Parsed JNull), mkBindings (JString "postgres://db"),
             sample_defaults);
            (mkRequest DELETE (ApiPost "p1") (Parsed (as_user "u1")),
             mkBindings (JNumber 1%float), sample_defaults)]
           (cold (λ _, sample_store))).
  - reflexivity.
  - repeat constructor.
Defined.

(** C10: once a request has initialised the client, every later request
    goes straight to the application with that client: the client is
    never replaced, whatever the requests that follow, and the connection
    string they are delivered with is not looked at, so that replacing it
    on all of them by any other value, absent or malformed included,
    changes neither a response nor the final state.  [fetch_cold_initializes]
    is the step that sets the client. *)
Theorem prisma_initialized_once (w : World) (client : PrismaClient)
    (inputs : list (Request * Bindings * Defaults)) (env' : Bindings) :
  prisma w = Some client →
  prisma (serve inputs w).2 = Some client
  ∧ serve (with_env env' <$> inputs) w = serve inputs w
  ∧ (∀ request env d, fetch request env d w = app_fetch request env d client w).
Proof.
  intros Hp. split; [|split].
  - revert w Hp. induction inputs as [|[[request env] d] rest IH]; intros w Hp; [done|].
    simpl. apply IH. by rewrite (fetch_initialized _ _ _ _ client Hp).
  - revert w Hp. induction inputs as [|[[request env] d] rest IH]; intros w Hp; [done|].
    rewrite fmap_cons. simpl.
    rewrite !(fetch_initialized _ _ _ _ client Hp).
    rewrite (app_fetch_env request env' env).
    by rewrite IH.
  - intros request env d. by apply fetch_initialized.
Qed.

Lemma prisma_initialized_once_witness :
  let w := (fetch probe configured sample_defaults (cold (λ _, sample_store))).2 in
  let client := initializePrismaClient "prisma://accelerate.example/?api_key=k" in
  let inputs := [(probe, mkBindings (JString "prisma://elsewhere"), sample_defaults);
                 (mkRequest GET (ApiPost "p1") (Parsed JNull), configured, sample_defaults)] in
  prisma (serve inputs w).2 = Some client
  ∧ serve (with_env unconfigured <$> inputs) w = serve inputs w
  ∧ (∀ request env d, fetch request env d w = app_fetch request env d client w).
Proof.
  intros w client inputs.
  apply (prisma_initialized_once w client inputs unconfigured). reflexivity.
Defined.

(** ** The model on concrete inputs *)

Example truthy_values :
  truthy (JNumber 0%float) = false ∧ truthy (JNumber (-0)%float) = false
  ∧ truthy (JNumber nan) = false ∧ truthy (JNumber 0.5%float) = true
  ∧ truthy (JString EmptyString) = false ∧ truthy (JString "0") = true
  ∧ truthy (JArray []) = true ∧ truthy (JObject []) = true.
Proof. repeat split. Qed.

(** A body that is a number or an array has no [currentUserId]: 401. *)
Example put_post_array_body :
  put_post "p1" (Parsed (JArray [])) = Ret (json (ErrorBody "Authentication required") 401).
Proof. reflexivity. Qed.

(** A [currentUserId] that is the number 1 is present and is nobody's id. *)
Example delete_post_numeric_user :
  outcome (run sample_defaults
             (delete_post "p1" (Parsed (JObject [("currentUserId", JNumber 1%float)])))
             sample_store)
  = Resolved (json (ErrorBody "Unauthorized: You are not the author of this post") 403).
Proof. reflexivity. Qed.

(** A truthy [title] that is not a string is refused by the client. *)
Example post_posts_numeric_title :
  run sample_defaults
    (post_posts (Parsed (JObject [("title", JNumber 5%float); ("content", JString "C");
                                  ("authorId", JString "u1")])))
    sample_store
  = mkRan (Resolved (json (ErrorDetails "Failed to create post" "Invalid value provided") 500))
      sample_store [createCall].
Proof. reflexivity. Qed.

(** An author that is no user is refused by the database. *)
Example post_posts_unknown_author :
  run sample_defaults
    (post_posts (Parsed (JObject [("title", JString "T"); ("content", JString "C");
                                  ("authorId", JString "nobody")])))
    sample_store
  = mkRan (Resolved (json (ErrorDetails "Failed to create post"
                             "Foreign key constraint failed (P2003)") 500))
      sample_store [createCall].
Proof. reflexivity. Qed.

(** A [null] title on an authorized PUT is refused, and nothing changes. *)
Example put_post_null_title :
  run sample_defaults
    (put_post "p1" (Parsed (JObject [("currentUserId", JString "u1"); ("title", JNull)])))
    sample_store
  = mkRan (Resolved (json (ErrorDetails "Failed to update post" "Invalid value provided") 500))
      sample_store [findUnique; updateCall].
Proof. reflexivity. Qed.

(** A preflight under [/api/], a [HEAD] probe, and a path that is not routed. *)
Example dispatch_other_requests :
  (dispatch OPTIONS (mkRequest OPTIONS ApiPosts (Malformed "Unexpected end of JSON input")) sample_defaults sample_store).1
    = no_body 204
  ∧ (app_fetch (mkRequest HEAD Root (Malformed "Unexpected end of JSON input")) configured sample_defaults
       (initializePrismaClient "prisma://x") (cold (λ _, sample_store))).1
    = mkResponse 200 NoBody
  ∧ (dispatch POST (mkRequest POST Elsewhere (Malformed "Unexpected end of JSON input")) sample_defaults sample_store).1
    = text "404 Not Found" 404.
Proof. repeat split. Qed.

(** * Further properties of the handlers *)

(** ** Whatever the storage answers *)

(** Running against the store of the schema is running against [exec]. *)
Lemma run_run_with {A : Type} (d : Defaults) (h : Handler A) (s : Store) :
  run d h s =
    mkRan (settled (run_with (λ X, exec d) h s)) (state (run_with (λ X, exec d) h s))
      (issued (run_with (λ X, exec d) h s)).
Proof.
  revert s. induction h as [a|error|X call k IH]; intros s; simpl; [done..|].
  by rewrite IH.
Qed.

Ltac settle e :=
  repeat (simpl;
          match goal with
          | |- context [e ?X ?call ?s] => destruct (e X call s) as [[?|?] ?]
          | |- context [if ?b then _ else _] => destruct b
          | |- context [match ?o with Some _ => _ | None => _ end] => destruct o
          end);
  simpl; eexists; (split; [reflexivity|]); (split; [set_solver|done]).

Lemma get_posts_answers {S : Type} (e : Executor S) (s : S) :
  answers e s get_posts [200; 500].
Proof. unfold answers, get_posts. settle e. Qed.

Lemma get_post_answers {S : Type} (e : Executor S) (s : S) (id : string) :
  answers e s (get_post id) [200; 404; 500].
Proof. unfold answers, get_post. settle e. Qed.

Lemma post_posts_answers {S : Type} (e : Executor S) (s : S) (v : JsValue) :
  nullish v = false → answers e s (post_posts (Parsed v)) [201; 400; 500].
Proof. intros Hv. unfold answers. rewrite (post_posts_parsed v Hv). settle e. Qed.

Lemma put_post_answers {S : Type} (e : Executor S) (s : S) (id : string) (v : JsValue) :
  nullish v = false → answers e s (put_post id (Parsed v)) [200; 401; 403; 404; 500].
Proof. intros Hv. unfold answers. rewrite (put_post_parsed id v Hv). settle e. Qed.

Lemma delete_post_answers {S : Type} (e : Executor S) (s : S) (id : string) (v : JsValue) :
  nullish v = false → answers e s (delete_post id (Parsed v)) [204; 401; 403; 404; 500].
Proof. intros Hv. unfold answers. rewrite (delete_post_parsed id v Hv). settle e. Qed.

(** X1: whatever the storage does, rejections included, the API handlers
    never throw once the body is read: each resolves with a JSON or empty
    body and a status from its own short list. *)
Theorem handlers_always_answer {S : Type} (e : Executor S) (s : S) (id : string) (v : JsValue) :
  nullish v = false →
  answers e s get_posts [200; 500]
  ∧ answers e s (get_post id) [200; 404; 500]
  ∧ answers e s (post_posts (Parsed v)) [201; 400; 500]
  ∧ answers e s (put_post id (Parsed v)) [200; 401; 403; 404; 500]
  ∧ answers e s (delete_post id (Parsed v)) [204; 401; 403; 404; 500].
Proof.
  intros Hv. repeat split.
  - apply get_posts_answers.
  - apply get_post_answers.
  - by apply post_posts_answers.
  - by apply put_post_answers.
  - by apply delete_post_answers.
Qed.

(** A storage that is down: every call rejects. *)
Lemma handlers_always_answer_witness :
  let down : Executor unit := λ X _ s, (Rejected (NonError "connection refused"), s) in
  answers down () get_posts [200; 500]
  ∧ answers down () (get_post "p1") [200; 404; 500]
  ∧ answers down () (post_posts (Parsed (as_user "u1"))) [201; 400; 500]
  ∧ answers down () (put_post "p1" (Parsed (as_user "u1"))) [200; 401; 403; 404; 500]
  ∧ answers down () (delete_post "p1" (Parsed (as_user "u1"))) [204; 401; 403; 404; 500].
Proof.
  intros down. apply (handlers_always_answer down () "p1" (as_user "u1")). reflexivity.
Defined.

Lemma answers_exec_not_text (d : Defaults) (s : Store) (h : Handler Response) (codes : list Z) :
  answers (λ X, exec d) s h codes →
  ∀ (t : string) (code : Z),
    match outcome (run d h s) with
    | Resolved response => response
    | Rejected _ => text "Internal Server Error" 500
    end ≠ text t code.
Proof.
  intros (response & Hr & _ & Hbody) t code. rewrite run_run_with. simpl. rewrite Hr.
  intros ->. by apply (Hbody t).
Qed.

Lemma unreadable_post_posts (b : ReqBody) :
  unreadable b = true → ∃ error, post_posts b = Throw error.
Proof. destruct b as [message|[]]; try done; intros _; eexists; reflexivity. Qed.

Lemma unreadable_put_post (id : string) (b : ReqBody) :
  unreadable b = true → ∃ error, put_post id b = Throw error.
Proof. destruct b as [message|[]]; try done; intros _; eexists; reflexivity. Qed.

Lemma unreadable_delete_post (id : string) (b : ReqBody) :
  unreadable b = true → ∃ error, delete_post id b = Throw error.
Proof. destruct b as [message|[]]; try done; intros _; eexists; reflexivity. Qed.

Lemma readable_parsed (b : ReqBody) :
  unreadable b = false → ∃ v, b = Parsed v ∧ nullish v = false.
Proof. destruct b as [message|v]; [done|]. simpl. eauto. Qed.

(** X2: Hono's plain-text 500 is the answer exactly when the route reads
    the body (POST /api/posts, PUT and DELETE /api/posts/:id) and the body
    is not JSON or is [null]; no state of the store, and no other request,
    produces it. *)
Theorem internal_error_iff (m : Method) (request : Request) (d : Defaults) (s : Store) :
  (dispatch m request d s).1 = text "Internal Server Error" 500
  ↔ reads_body m (path request) = true ∧ unreadable (req_body request) = true.
Proof.
  destruct request as [m0 p b]. unfold dispatch. simpl.
  destruct m, p as [| |id| |]; simpl;
    try (split; [discriminate|by intros [? _]]).
  - split; [|by intros [? _]].
    intros H. by apply (answers_exec_not_text d s _ _ (get_posts_answers _ s)) in H.
  - split; [|by intros [? _]].
    intros H. by apply (answers_exec_not_text d s _ _ (get_post_answers _ s id)) in H.
  - destruct (unreadable b) eqn:Hb.
    + destruct (unreadable_post_posts b Hb) as [error ->]. done.
    + destruct (readable_parsed b Hb) as (v & -> & Hv). split; [|by intros [_ ?]].
      intros H. by apply (answers_exec_not_text d s _ _ (post_posts_answers _ s v Hv)) in H.
  - destruct (unreadable b) eqn:Hb.
    + destruct (unreadable_put_post id b Hb) as [error ->]. done.
    + destruct (readable_parsed b Hb) as (v & -> & Hv). split; [|by intros [_ ?]].
      intros H. by apply (answers_exec_not_text d s _ _ (put_post_answers _ s id v Hv)) in H.
  - destruct (unreadable b) eqn:Hb.
    + destruct (unreadable_delete_post id b Hb) as [error ->]. done.
    + destruct (readable_parsed b Hb) as (v & -> & Hv). split; [|by intros [_ ?]].
      intros H. by apply (answers_exec_not_text d s _ _ (delete_post_answers _ s id v Hv)) in H.
Qed.

(** ** Who may write *)

Lemma strict_eq_string (a : string) (v : JsValue) :
  strict_eq (JString a) v = true ↔ v = JString a.
Proof.
  destruct v as [| | | |x| |]; try (split; [discriminate|done]).
  unfold strict_eq. destruct (String.eqb_spec a x) as [->|Hne].
  - done.
  - split; [discriminate|]. intros [= ->]. done.
Qed.

(** X3: whatever the storage, PUT and DELETE issue a write call only after
    the lookup of the addressed post has resolved to a post whose
    [authorId] is, as a string, the body's [currentUserId]; a number, an
    object or a missing value never passes. *)
Theorem write_requires_author {S : Type} (e : Executor S) (delete : bool) (id : string)
    (b : ReqBody) (s : S) :
  existsb writes
    (issued (run_with e (if delete then delete_post id b else put_post id b) s)) = true →
  ∃ v authorId s',
    b = Parsed v
    ∧ e _ (FindUniqueAuthorId id) s = (Resolved (Some authorId), s')
    ∧ prop v "currentUserId" = JString authorId.
Proof.
  destruct b as [message|v]; [by destruct delete|].
  destruct (nullish v) eqn:Hv; [by destruct delete, v|].
  destruct delete;
    [rewrite (delete_post_parsed id v Hv)|rewrite (put_post_parsed id v Hv)];
    (destruct (truthy (prop v "currentUserId")); simpl; [|discriminate]);
    (destruct (e _ (FindUniqueAuthorId id) s) as [[error|[authorId|]] s'] eqn:He;
       simpl; try discriminate);
    (destruct (strict_eq (JString authorId) (prop v "currentUserId")) eqn:Heq;
       simpl; [|discriminate]);
    intros _; exists v, authorId, s'; by apply strict_eq_string in Heq.
Qed.

Lemma write_requires_author_witness :
  ∃ v authorId s',
    Parsed (as_user "u1") = Parsed v
    ∧ exec sample_defaults (FindUniqueAuthorId "p1") sample_store = (Resolved (Some authorId), s')
    ∧ prop v "currentUserId" = JString authorId.
Proof.
  apply (write_requires_author (λ X, exec sample_defaults) true "p1" (Parsed (as_user "u1"))
           sample_store).
  reflexivity.
Defined.

(** ** What one request can change *)

(** Each handler leaves the store as it found it or as its one write call
    left it. *)
Lemma put_post_store (d : Defaults) (id : string) (b : ReqBody) (s : Store) :
  store (run d (put_post id b) s) = s
  ∨ ∃ t c p, store (run d (put_post id b) s) = (update id t c p s).2.
Proof.
  destruct b as [message|v]; [by left|].
  destruct (nullish v) eqn:Hv; [left; by destruct v|].
  destruct (truthy (prop v "currentUserId")) eqn:Hc.
  - destruct (posts s !! id) as [r|] eqn:Hr.
    + rewrite (run_put_post_found d s id r v Hr Hc).
      destruct (strict_eq _ _); [right; eauto|by left].
    + left. by rewrite (run_put_post_absent d s id v Hr Hc).
  - left. by rewrite (put_post_parsed id v Hv), Hc.
Qed.

Lemma delete_post_store (d : Defaults) (id : string) (b : ReqBody) (s : Store) :
  store (run d (delete_post id b) s) = s
  ∨ store (run d (delete_post id b) s) = mkStore (delete id (posts s)) (users s).
Proof.
  destruct b as [message|v]; [by left|].
  destruct (nullish v) eqn:Hv; [left; by destruct v|].
  destruct (truthy (prop v "currentUserId")) eqn:Hc.
  - destruct (posts s !! id) as [r|] eqn:Hr.
    + rewrite (run_delete_post_found d s id r v Hr Hc).
      destruct (strict_eq _ _); [by right|by left].
    + left. by rewrite (run_delete_post_absent d s id v Hr Hc).
  - left. by rewrite (delete_post_parsed id v Hv), Hc.
Qed.

Lemma post_posts_store (d : Defaults) (b : ReqBody) (s : Store) :
  store (run d (post_posts b) s) = s
  ∨ ∃ t c a, store (run d (post_posts b) s) = (create d t c a true s).2.
Proof.
  destruct b as [message|v]; [by left|].
  destruct (nullish v) eqn:Hv; [left; by destruct v|].
  rewrite (post_posts_parsed v Hv).
  destruct (negb (truthy (prop v "title")) || negb (truthy (prop v "content"))
            || negb (truthy (prop v "authorId"))); [by left|].
  right. exists (prop v "title"), (prop v "content"), (prop v "authorId"). simpl.
  by destruct (create d (prop v "title") (prop v "content") (prop v "authorId") true s)
    as [[?|?] ?].
Qed.

Lemma get_posts_store (d : Defaults) (s : Store) : store (run d get_posts s) = s.
Proof. simpl. by destruct (find_many s). Qed.

Lemma get_post_store (d : Defaults) (id : string) (s : Store) :
  store (run d (get_post id) s) = s.
Proof. simpl. by destruct (find_unique id s) as [?|[?|]]. Qed.

Lemma update_store (id : string) (t c p : JsValue) (s : Store) :
  (update id t c p s).2 = s
  ∨ ∃ old r, posts s !! id = Some old
      ∧ Row.authorId r = Row.authorId old ∧ Row.createdAt r = Row.createdAt old
      ∧ (update id t c p s).2 = mkStore (<[id := r]> (posts s)) (users s).
Proof.
  destruct (posts s !! id) as [old|] eqn:Hold;
    [|left; by destruct (update_absent id t c p s Hold) as [error ->]].
  destruct (update_accepted t c p) eqn:Hok;
    [|left; by destruct (update_refused id t c p s Hok) as [error ->]].
  right. exists old. eexists. split; [done|].
  rewrite (update_accepted_row id t c p s old Hold Hok). simpl.
  refine (conj _ (conj _ eq_refl)); done.
Qed.

Lemma create_store (d : Defaults) (t c a : JsValue) (flag : bool) (s : Store) :
  (create d t c a flag s).2 = s
  ∨ ∃ r, posts s !! uuid d = None
      ∧ (create d t c a flag s).2 = mkStore (<[uuid d := r]> (posts s)) (users s).
Proof.
  destruct (create_cases d t c a flag s)
    as [[error ->]|(t' & c' & a' & email & _ & _ & _ & _ & _ & Hfresh & ->)]; [by left|].
  right. eauto.
Qed.

(** X4: a PUT or DELETE addressed to one id leaves every other post as it
    was, and the users too, whatever the body and whoever sends it. *)
Theorem put_delete_other_rows (d : Defaults) (s : Store) (id id' : string) (b : ReqBody) :
  String.eqb id' id = false →
  posts (store (run d (put_post id b) s)) !! id' = posts s !! id'
  ∧ users (store (run d (put_post id b) s)) = users s
  ∧ posts (store (run d (delete_post id b) s)) !! id' = posts s !! id'
  ∧ users (store (run d (delete_post id b) s)) = users s.
Proof.
  intros Hne%String.eqb_neq.
  destruct (put_post_store d id b s) as [->|(t & c & p & ->)];
    destruct (delete_post_store d id b s) as [->| ->]; simpl;
    try destruct (update_store id t c p s) as [->|(old & r & _ & _ & _ & ->)]; simpl;
    rewrite ?lookup_insert_ne, ?lookup_delete_ne by done; done.
Qed.

Lemma put_delete_other_rows_witness :
  let b := Parsed (JObject [("currentUserId", JString "u1"); ("title", JString "Renamed")]) in
  posts (store (run sample_defaults (put_post "p1" b) sample_store)) !! "p2"
    = posts sample_store !! "p2"
  ∧ users (store (run sample_defaults (put_post "p1" b) sample_store)) = users sample_store
  ∧ posts (store (run sample_defaults (delete_post "p1" b) sample_store)) !! "p2"
    = posts sample_store !! "p2"
  ∧ users (store (run sample_defaults (delete_post "p1" b) sample_store)) = users sample_store.
Proof.
  intros b. apply (put_delete_other_rows sample_defaults sample_store "p1" "p2" b).
  reflexivity.
Defined.

(** X5: a POST never changes or removes a stored post: every post that was
    there is there unchanged afterwards, the users are untouched, and the
    table grows by one row at most. *)
Theorem post_keeps_existing (d : Defaults) (s : Store) (b : ReqBody) (id : string) (r : Row.t) :
  posts s !! id = Some r →
  posts (store (run d (post_posts b) s)) !! id = Some r
  ∧ users (store (run d (post_posts b) s)) = users s
  ∧ (size (posts (store (run d (post_posts b) s))) ≤ S (size (posts s)))%nat.
Proof.
  intros Hr.
  destruct (post_posts_store d b s) as [->|(t & c & a & ->)]; [repeat split; [done|lia]|].
  destruct (create_store d t c a true s) as [->|(r' & Hfresh & ->)];
    [repeat split; [done|lia]|].
  simpl. split; [|split; [done|]].
  - rewrite lookup_insert_ne; [done|]. intros <-. congruence.
  - by rewrite map_size_insert_None.
Qed.

Lemma post_keeps_existing_witness :
  let b := Parsed (JObject [("title", JString "T"); ("content", JString "C");
                            ("authorId", JString "u1")]) in
  posts (store (run sample_defaults (post_posts b) sample_store)) !! "p1"
    = Some (Row.mk 10 "First" "one" "u1" true)
  ∧ users (store (run sample_defaults (post_posts b) sample_store)) = users sample_store
  ∧ (size (posts (store (run sample_defaults (post_posts b) sample_store)))
     ≤ S (size (posts sample_store)))%nat.
Proof.
  intros b.
  apply (post_keeps_existing sample_defaults sample_store b "p1"
           (Row.mk 10 "First" "one" "u1" true)).
  reflexivity.
Defined.

Lemma keeps_identity_refl (s : Store) : keeps_identity s s.
Proof. split; [done|]. intros id r r' Hr Hr'. by simplify_eq. Qed.

Lemma update_keeps_identity (id : string) (t c p : JsValue) (s : Store) :
  keeps_identity s (update id t c p s).2.
Proof.
  destruct (update_store id t c p s) as [->|(old & r & Hold & Ha & Hc & ->)];
    [apply keeps_identity_refl|].
  split; [done|]. simpl. intros id' r0 r' Hr0 Hr'.
  destruct (decide (id = id')) as [<-|Hne].
  - rewrite lookup_insert_eq in Hr'. by simplify_eq.
  - rewrite lookup_insert_ne in Hr' by done. by simplify_eq.
Qed.

Lemma create_keeps_identity (d : Defaults) (t c a : JsValue) (flag : bool) (s : Store) :
  keeps_identity s (create d t c a flag s).2.
Proof.
  destruct (create_store d t c a flag s) as [->|(r & Hfresh & ->)];
    [apply keeps_identity_refl|].
  split; [done|]. simpl. intros id' r0 r' Hr0 Hr'.
  destruct (decide (uuid d = id')) as [<-|Hne]; [congruence|].
  rewrite lookup_insert_ne in Hr' by done. by simplify_eq.
Qed.

Lemma delete_keeps_identity (id : string) (s : Store) :
  keeps_identity s (mkStore (delete id (posts s)) (users s)).
Proof.
  split; [done|]. simpl. intros id' r r' Hr Hr'.
  apply lookup_delete_Some in Hr' as [_ Hr']. by simplify_eq.
Qed.

(** X6: no request, on any route and with any body, changes the author or
    the creation time of a post that is still there afterwards, and none
    changes the users: ownership cannot be transferred through the API. *)
Theorem dispatch_keeps_identity (m : Method) (request : Request) (d : Defaults) (s : Store) :
  keeps_identity s (dispatch m request d s).2.
Proof.
  destruct request as [m0 p b].
  destruct m, p as [| |id| |];
    unfold dispatch, route; cbn [path req_body under_api is_preflight andb snd];
    try apply keeps_identity_refl.
  - rewrite get_posts_store. apply keeps_identity_refl.
  - rewrite get_post_store. apply keeps_identity_refl.
  - destruct (post_posts_store d b s) as [->|(t & c & a & ->)];
      [apply keeps_identity_refl|apply create_keeps_identity].
  - destruct (put_post_store d id b s) as [->|(t & c & pb & ->)];
      [apply keeps_identity_refl|apply update_keeps_identity].
  - destruct (delete_post_store d id b s) as [->| ->];
      [apply keeps_identity_refl|apply delete_keeps_identity].
Qed.

(** X7: a GET (so a HEAD, dispatched as GET) or an OPTIONS request never
    changes the store, whatever the path and even where the store is
    inconsistent and the answer is a 500. *)
Theorem reads_leave_store (m : Method) (request : Request) (d : Defaults) (s : Store) :
  writes_nothing m = true →
  (dispatch m request d s).2 = s.
Proof.
  destruct request as [m0 p b].
  destruct m; try discriminate; intros _;
    destruct p; unfold dispatch, route; cbn [path req_body under_api is_preflight andb snd];
    try done; [apply get_posts_store|apply get_post_store].
Qed.

Lemma reads_leave_store_witness :
  (dispatch GET (mkRequest GET ApiPosts (Parsed JNull)) sample_defaults sample_store).2
  = sample_store.
Proof.
  apply (reads_leave_store GET (mkRequest GET ApiPosts (Parsed JNull)) sample_defaults
           sample_store).
  reflexivity.
Defined.

(** ** Reading back what was written *)

(** X8: in a store that satisfies the foreign key, GET /api/posts/:id of
    a stored post makes the one lookup and answers 200 with exactly the
    stored columns under that id, joined with the [id] and [email] of the
    user its [authorId] names; the store is unchanged. *)
Theorem get_post_returns_stored (d : Defaults) (s : Store) (id : string) (r : Row.t) :
  foreign_key_ok s →
  posts s !! id = Some r →
  ∃ email,
    users s !! Row.authorId r = Some email
    ∧ run d (get_post id) s =
        mkRan (Resolved (json (PostWithAuthorBody
                                 (PostWithAuthor.mk
                                    (Post.mk id (Row.createdAt r) (Row.title r) (Row.content r)
                                       (Row.authorId r) (Row.published r))
                                    (User.mk (Row.authorId r) email)))
                           200))
          s [findUnique].
Proof.
  intros Hfk Hr. destruct (Hfk id r Hr) as [email Hu]. exists email. split; [done|].
  exact (run_get_post_found d s id r email Hr Hu).
Qed.

Lemma get_post_returns_stored_witness :
  ∃ email,
    users sample_store !! "u2" = Some email
    ∧ run sample_defaults (get_post "p2") sample_store =
        mkRan (Resolved (json (PostWithAuthorBody
                                 (PostWithAuthor.mk (Post.mk "p2" 20 "Second" "two" "u2" false)
                                    (User.mk "u2" email)))
                           200))
          sample_store [findUnique].
Proof.
  apply (get_post_returns_stored sample_defaults sample_store "p2"
           (Row.mk 20 "Second" "two" "u2" false)).
  - apply (bool_decide_unpack _). vm_compute. exact I.
  - reflexivity.
Defined.

(** X9: the author's DELETE answers 204 with an empty body after a lookup
    and one delete call; it removes that post and no other, so the table
    is one row shorter, and a GET of the id then answers 404 (were the id
    one with a NUL byte, which no table holds, the database would refuse
    that GET and the answer would be 500). *)
Theorem delete_then_gone (d d' : Defaults) (s : Store) (id : string) (r : Row.t) (v : JsValue) :
  posts s !! id = Some r →
  prop v "currentUserId" = JString (Row.authorId r) →
  truthy (JString (Row.authorId r)) = true →
  let ran := run d (delete_post id (Parsed v)) s in
  ran = mkRan (Resolved (no_body 204)) (mkStore (delete id (posts s)) (users s))
          [findUnique; deleteCall]
  ∧ S (size (posts (store ran))) = size (posts s)
  ∧ run d' (get_post id) (store ran) =
      mkRan (Resolved (if has_nul id
                       then json (ErrorDetails "Failed to fetch post"
                                    "invalid byte sequence for encoding UTF8: 0x00") 500
                       else json (ErrorBody "Post not found") 404))
        (store ran) [findUnique].
Proof.
  intros Hr Hc Ht ran.
  assert (ran = mkRan (Resolved (no_body 204)) (mkStore (delete id (posts s)) (users s))
                  [findUnique; deleteCall]) as ->.
  { subst ran. rewrite (run_delete_post_found d s id r v Hr) by (by rewrite Hc).
    rewrite Hc. by rewrite (proj2 (strict_eq_string _ _) eq_refl). }
  split; [done|split]; simpl.
  - rewrite map_size_delete, Hr. simpl.
    assert (size (posts s) ≠ 0%nat); [|lia].
    intros Hz%map_size_empty_inv. by rewrite Hz, lookup_empty in Hr.
  - apply (run_get_post_absent d' (mkStore (delete id (posts s)) (users s)) id).
    simpl. apply lookup_delete_eq.
Qed.

Lemma delete_then_gone_witness :
  let ran := run sample_defaults (delete_post "p3" (Parsed (as_user "u1"))) sample_store in
  ran = mkRan (Resolved (no_body 204))
          (mkStore (delete "p3" (posts sample_store)) (users sample_store))
          [findUnique; deleteCall]
  ∧ S (size (posts (store ran))) = size (posts sample_store)
  ∧ run sample_defaults (get_post "p3") (store ran) =
      mkRan (Resolved (json (ErrorBody "Post not found") 404)) (store ran) [findUnique].
Proof.
  exact (delete_then_gone sample_defaults sample_defaults sample_store "p3"
           (Row.mk 15 "Third" "three" "u1" false) (as_user "u1") eq_refl eq_refl eq_refl).
Defined.






(** ** The connection string *)

Lemma prisma_prefix_ok (url : string) :
  String.prefix "prisma://" url = true → misconfigured (JString url) = false.
Proof. intros Hp. unfold misconfigured. cbn. rewrite Hp. by destruct url. Qed.

(** X12: the check of [fetch] passes exactly the strings that start with
    [prisma://]; the emptiness test adds nothing, and every other value,
    [undefined] included, is a misconfiguration. *)
Theorem misconfigured_iff (v : JsValue) :
  misconfigured v = false ↔ ∃ url, v = JString url ∧ String.prefix "prisma://" url = true.
Proof.
  destruct v as [| |b|f|url| |];
    try (split; [|by intros (? & ? & _)]; unfold misconfigured; cbn;
         rewrite ?orb_true_r; discriminate).
  unfold misconfigured. cbn. split.
  - intros H. exists url. split; [done|].
    by destruct (String.prefix "prisma://" url); [|rewrite orb_true_r in H].
  - intros (url' & [= <-] & Hp). by apply prisma_prefix_ok in Hp.
Qed.

(** X13: the request that finds no client and brings a string starting
    with [prisma://] is itself served: the client is created from that
    string and the request goes to the application with it, against the
    database the string names. *)
Theorem fetch_cold_serves (request : Request) (url : string) (d : Defaults)
    (dbs : string → Store) :
  String.prefix "prisma://" url = true →
  fetch request (mkBindings (JString url)) d (cold dbs) =
    app_fetch request (mkBindings (JString url)) d (initializePrismaClient url)
      (mkWorld (Some (initializePrismaClient url)) dbs)
  ∧ prisma (fetch request (mkBindings (JString url)) d (cold dbs)).2
    = Some (initializePrismaClient url).
Proof.
  intros Hok%prisma_prefix_ok. unfold fetch. simpl. by rewrite Hok.
Qed.

Lemma fetch_cold_serves_witness :
  fetch probe (mkBindings (JString "prisma://accelerate")) sample_defaults
    (cold (λ _, sample_store)) =
    app_fetch probe (mkBindings (JString "prisma://accelerate")) sample_defaults
      (initializePrismaClient "prisma://accelerate")
      (mkWorld (Some (initializePrismaClient "prisma://accelerate")) (λ _, sample_store))
  ∧ prisma (fetch probe (mkBindings (JString "prisma://accelerate")) sample_defaults
              (cold (λ _, sample_store))).2
    = Some (initializePrismaClient "prisma://accelerate").
Proof.
  apply (fetch_cold_serves probe "prisma://accelerate" sample_defaults (λ _, sample_store)).
  reflexivity.
Defined.
